(** * AVANTIXRPA: the GUI launcher guard ([run_avantixrpa_gui.pyw])

    The launcher imports the GUI entry point [main], calls it inside a
    [try: ... except Exception:] statement and, when an exception is caught,
    formats the traceback, creates a Tk root window, withdraws it, shows an
    error dialog and destroys the window.

    The script is embedded as a computation in a state-and-exception monad
    over a [World] that holds what the script can touch: the namespace of the
    [__main__] module, the table of Tk top-level windows, a log of the calls
    made, and an opaque component for everything the application owns.  The
    entry point [main] is external: every statement quantifies over it.  So
    are [traceback] and [tkinter]; they are modelled by what the script
    relies on: the layout of a formatted traceback, and a window table in
    which a window is drawn by the event loop unless it is withdrawn.  Each
    Tk call can also raise, as the world decides.

    The four [import] statements are taken as done: the script starts in a
    namespace where their names are bound.  Python strings are kept as their
    UTF-8 bytes. *)

From Stdlib Require Import Ascii String List Bool.
From stdpp Require Import base gmap strings list pretty.

(** ** Python exception classes *)

(** A class is its name, as a traceback prints it, and its direct bases;
    [issubclass] walks the bases, as Python does for an [except C:]
    clause. *)
#[warnings="-register-all"]
Inductive pyclass : Type :=
| PyClass (name : string) (bases : list pyclass).

Definition class_name (c : pyclass) : string :=
  match c with PyClass n _ => n end.

Fixpoint class_eqb (c d : pyclass) {struct c} : bool :=
  match c, d with
  | PyClass n bs, PyClass m ds =>
      String.eqb n m &&
      (fix all2 (l k : list pyclass) {struct l} : bool :=
         match l, k with
         | [], [] => true
         | x :: l', y :: k' => class_eqb x y && all2 l' k'
         | _, _ => false
         end) bs ds
  end.

Fixpoint issubclass (c d : pyclass) {struct c} : bool :=
  class_eqb c d ||
  match c with
  | PyClass _ bs => existsb (fun b => issubclass b d) bs
  end.

Definition object_ : pyclass := PyClass "object" [].
Definition BaseException : pyclass := PyClass "BaseException" [object_].
Definition Exception : pyclass := PyClass "Exception" [BaseException].
Definition SystemExit : pyclass := PyClass "SystemExit" [BaseException].
Definition KeyboardInterrupt : pyclass :=
  PyClass "KeyboardInterrupt" [BaseException].
Definition RuntimeError : pyclass := PyClass "RuntimeError" [Exception].
Definition NameError : pyclass := PyClass "NameError" [Exception].
(** [tkinter.TclError], raised by Tk calls that fail. *)
Definition TclError : pyclass := PyClass "_tkinter.TclError" [Exception].

Definition LF : string := String (ascii_of_nat 10) EmptyString.
Definition DQ : string := String (ascii_of_nat 34) EmptyString.

(** One entry of a traceback: file, line number, function, source line. *)
Record frame : Type := mkFrame {
  f_file : string;
  f_lineno : nat;
  f_name : string;
  f_line : string
}.

(** An exception instance: its class, [str(exc)], and its traceback, the
    outermost call first. *)
Record pyexc : Type := mkExc {
  exc_class : pyclass;
  exc_str : string;
  exc_tb : list frame
}.

(** ** [traceback.format_exc] *)

Definition format_frame (f : frame) : string :=
  "  File " +:+ DQ +:+ f_file f +:+ DQ +:+ ", line " +:+ pretty (f_lineno f)
  +:+ ", in " +:+ f_name f +:+ LF
  +:+ "    " +:+ f_line f +:+ LF.

(** The last line of a traceback: the class name, then [": "] and the
    message unless the message is empty. *)
Definition format_exception_only (e : pyexc) : string :=
  if String.eqb (exc_str e) EmptyString
  then class_name (exc_class e) +:+ LF
  else class_name (exc_class e) +:+ ": " +:+ exc_str e +:+ LF.

(** [traceback.format_exc()] inside a handler, for the exception being
    handled: header, frames, last line.  (Exception chaining is left out.) *)
Definition format_exc (e : pyexc) : string :=
  "Traceback (most recent call last):" +:+ LF
  +:+ String.concat EmptyString (format_frame <$> exc_tb e)
  +:+ format_exception_only e.

(** [sub] occurs in [s]. *)
Definition contains (s sub : string) : Prop :=
  exists pre post : string, s = pre +:+ sub +:+ post.

(** ** The world the launcher runs in *)

(** Values bound in the module namespace. *)
Inductive pyval : Type :=
| VStr (s : string)
| VTk (id : nat)
| VObj (tag : string).

(** A Tk top-level window: its [wm state], and whether it has been drawn on
    the screen.  Tk draws a window in state [Normal] when the event loop next
    runs, not when the window is created. *)
Inductive wm_state : Type := Normal | Withdrawn.

Record toplevel : Type := mkTop {
  wm : wm_state;
  viewable : bool
}.

(** What the launcher does, in order: the call of [main] (noted when it
    starts), and the Tk calls of the handler (noted when they return). *)
Inductive event : Type :=
| EvCallMain
| EvTk (root : nat)
| EvWithdraw (root : nat)
| EvShowError (title body : string)
| EvDestroy (root : nat).

(** The Tk calls of the handler; each one can fail. *)
Inductive gui_op : Type := OpTk | OpWithdraw | OpShowError | OpDestroy.

(** How a statement or call ends: normally with a value, or by raising. *)
Inductive result (A : Type) : Type :=
| Ret (a : A)
| Raise (e : pyexc).
Arguments Ret {A} a.
Arguments Raise {A} e.

Section Launcher.

(** Whatever the application owns besides the GUI: files, the log, ... *)
Context {App : Type}.

Record World : Type := mkWorld {
  app : App;
  globals : gmap string pyval;
  windows : gmap nat toplevel;
  faults : gui_op -> option pyexc;
  dialog_reply : string;
  events : list event
}.

Definition set_globals (g : gmap string pyval) (w : World) : World :=
  mkWorld (app w) g (windows w) (faults w) (dialog_reply w) (events w).

Definition set_windows (ws : gmap nat toplevel) (w : World) : World :=
  mkWorld (app w) (globals w) ws (faults w) (dialog_reply w) (events w).

Definition record (ev : event) (w : World) : World :=
  mkWorld (app w) (globals w) (windows w) (faults w) (dialog_reply w)
          (events w ++ [ev]).

(** ** The monad: state, and Python exceptions *)

Definition M (A : Type) : Type := World -> result A * World.

Definition ret {A : Type} (a : A) : M A := fun w => (Ret a, w).

Definition raise {A : Type} (e : pyexc) : M A := fun w => (Raise e, w).

Definition bind {A B : Type} (m : M A) (k : A -> M B) : M B :=
  fun w =>
    match m w with
    | (Ret a, w') => k a w'
    | (Raise e, w') => (Raise e, w')
    end.

(** [try: body / except cls: handler]: the handler runs on the world the
    body left, and only for an exception whose class derives from [cls]. *)
Definition try_except {A : Type}
    (body : M A) (cls : pyclass) (handler : pyexc -> M A) : M A :=
  fun w =>
    match body w with
    | (Ret a, w') => (Ret a, w')
    | (Raise e, w') =>
        if issubclass (exc_class e) cls then handler e w' else (Raise e, w')
    end.

End Launcher.

Arguments World : clear implicits.
Arguments M : clear implicits.

Declare Scope py_scope.
Delimit Scope py_scope with py.
Notation "x <- m ;; k" := (bind m (fun x => k))
  (at level 100, m at next level, right associativity) : py_scope.
Notation "m ;; k" := (bind m (fun _ => k))
  (at level 100, k at level 200, right associativity) : py_scope.

Section Script.

Context {App : Type}.
Local Open Scope py_scope.

Abbreviation World := (World App).
Abbreviation M := (M App).

(** ** Statements and library calls used by the script *)

(** [name = value] at module level. *)
Definition assign (name : string) (v : pyval) : M unit :=
  fun w => (Ret tt, set_globals (<[name := v]> (globals w)) w).

(** [tk.Tk()]: a new root window, in state [Normal] and not drawn yet. *)
Definition tk_Tk : M nat :=
  fun w =>
    match faults w OpTk with
    | Some x => (Raise x, w)
    | None =>
        let root := fresh (dom (windows w)) in
        (Ret root,
         record (EvTk root)
           (set_windows (<[root := mkTop Normal false]> (windows w)) w))
    end.

(** What Tk raises for a call on a window that is gone. *)
Definition destroyed : pyexc :=
  mkExc TclError
    ("can't invoke " +:+ DQ +:+ "wm" +:+ DQ
     +:+ " command: application has been destroyed") [].

(** [root.withdraw()]: the window leaves the screen and stays off it. *)
Definition withdraw (root : nat) : M unit :=
  fun w =>
    match faults w OpWithdraw with
    | Some x => (Raise x, w)
    | None =>
        match windows w !! root with
        | None => (Raise destroyed, w)
        | Some _ =>
            (Ret tt,
             record (EvWithdraw root)
               (set_windows (<[root := mkTop Withdrawn false]> (windows w)) w))
        end
    end.

(** What one turn of the Tk event loop does to a window: a window in state
    [Normal] gets drawn. *)
Definition draw (t : toplevel) : toplevel :=
  match wm t with
  | Normal => mkTop Normal true
  | Withdrawn => t
  end.

(** [messagebox.showerror(title, body)]: a modal dialog.  While it is up the
    event loop runs; the call returns what the dialog answers. *)
Definition showerror (title body : string) : M string :=
  fun w =>
    match faults w OpShowError with
    | Some x => (Raise x, w)
    | None =>
        (Ret (dialog_reply w),
         record (EvShowError title body)
           (set_windows (draw <$> windows w) w))
    end.

(** [root.destroy()]. *)
Definition destroy (root : nat) : M unit :=
  fun w =>
    match faults w OpDestroy with
    | Some x => (Raise x, w)
    | None =>
        match windows w !! root with
        | None => (Raise destroyed, w)
        | Some _ =>
            (Ret tt,
             record (EvDestroy root)
               (set_windows (delete root (windows w)) w))
        end
    end.

(** The call [main()]. *)
Definition call_main (main : M unit) : M unit :=
  fun w => main (record EvCallMain w).

(** ** The script *)

Definition dialog_title : string := "AVANTIXRPA 起動エラー".
Definition message_line1 : string :=
  "AVANTIXRPA の起動中にエラーが発生しました。".
Definition message_line2 : string :=
  "詳しくは logs/avantixrpa.log を確認してください。".

(** The three adjacent literals of the second argument, the last one the
    f-string [f"{err}"]. *)
Definition dialog_body (err : string) : string :=
  (message_line1 +:+ LF) +:+ (message_line2 +:+ LF +:+ LF) +:+ err.

(** The body of the [except Exception:] clause. *)
Definition handler (e : pyexc) : M unit :=
  let err := format_exc e in
  assign "err" (VStr err) ;;
  root <- tk_Tk ;;
  assign "root" (VTk root) ;;
  withdraw root ;;
  _ <- showerror dialog_title (dialog_body err) ;;
  destroy root.

(** The [try] statement. *)
Definition guard (main : M unit) : M unit :=
  try_except (call_main main) Exception handler.

(** Reading a name that is not bound. *)
Definition unbound (name : string) : pyexc :=
  mkExc NameError ("name '" +:+ name +:+ "' is not defined") [].

(** The module body, [if __name__ == "__main__": ...]: the [try] statement
    runs only when the name is bound to that string, which is the case when
    the file is run as a script and not when it is imported. *)
Definition module_body (main : M unit) : M unit :=
  fun w =>
    match globals w !! "__name__" with
    | None => (Raise (unbound "__name__"), w)
    | Some (VStr n) =>
        if String.eqb n "__main__" then guard main w else (Ret tt, w)
    | Some _ => (Ret tt, w)
    end.

(** How the interpreter ends once the module body is done. *)
Inductive process_end : Type :=
| ExitSuccess
| ExitUncaught (e : pyexc).

Definition interpreter_exit (r : result unit) : process_end :=
  match r with
  | Ret _ => ExitSuccess
  | Raise e => ExitUncaught e
  end.

(** ** Observations on a run *)

(** The events added between two worlds. *)
Definition emitted (before after : World) : list event :=
  drop (length (events before)) (events after).

Definition is_dialog (ev : event) : bool :=
  match ev with EvShowError _ _ => true | _ => false end.
Definition is_create (ev : event) : bool :=
  match ev with EvTk _ => true | _ => false end.
Definition is_destroy (ev : event) : bool :=
  match ev with EvDestroy _ => true | _ => false end.
Definition is_call_main (ev : event) : bool :=
  match ev with EvCallMain => true | _ => false end.

Definition count (p : event -> bool) (l : list event) : nat :=
  length (List.filter p l).

(** Every Tk call of the handler returns normally. *)
Definition gui_ok (w : World) : Prop := forall op, faults w op = None.

(** A string without a line break. *)
Definition single_line (s : string) : bool :=
  forallb (fun c => negb (Ascii.eqb c (ascii_of_nat 10)))
          (list_ascii_of_string s).

End Script.

(** ** Sample runs *)

(** A fresh process running the file as a script: no window yet, every Tk
    call working, the dialog answering ["ok"]. *)
Definition script_globals : gmap string pyval :=
  <[ "messagebox" := VObj "module tkinter.messagebox" ]>
  (<[ "tk" := VObj "module tkinter" ]>
  (<[ "traceback" := VObj "module traceback" ]>
  (<[ "main" := VObj "function main" ]>
  {[ "__name__" := VStr "__main__" ]}))).

Definition world0 : World unit :=
  mkWorld tt script_globals ∅ (fun _ => None) "ok" [].

(** That process once the script has called [main]. *)
Definition started : World unit := record EvCallMain world0.

(** The same process on a machine where the dialog call fails. *)
Definition no_dialog : pyexc := mkExc TclError "no display name" [].

Definition world_dialog_fails : World unit :=
  mkWorld tt script_globals ∅
    (fun op => match op with OpShowError => Some no_dialog | _ => None end)
    "ok" [].

Definition started_dialog_fails : World unit :=
  record EvCallMain world_dialog_fails.

(** The same process on a machine without a display: [tk.Tk()] fails. *)
Definition no_display : pyexc :=
  mkExc TclError "no display name and no $DISPLAY environment variable" [].

Definition world_no_display : World unit :=
  mkWorld tt script_globals ∅
    (fun op => match op with OpTk => Some no_display | _ => None end)
    "ok" [].

Definition started_no_display : World unit :=
  record EvCallMain world_no_display.

(** [RuntimeError("boom")], raised by the first statement of [main]. *)
Definition boom : pyexc :=
  mkExc RuntimeError "boom"
    [ mkFrame "run_avantixrpa_gui.pyw" 8 "<module>" "main()";
      mkFrame "main_window.py" 1 "main"
        ("raise RuntimeError(" +:+ DQ +:+ "boom" +:+ DQ +:+ ")") ].

Definition main_boom : M unit unit := raise boom.

(** [sys.exit(0)] inside [main]. *)
Definition exit_request : pyexc := mkExc SystemExit "0" [].

Definition main_exit : M unit unit := raise exit_request.

(** An entry point that returns. *)
Definition main_fine : M unit unit := ret tt.


(** A process in which the application has two windows of its own when
    [main] fails, one on the screen and one hidden, and in which destroying
    a window fails. *)
Definition cannot_destroy : pyexc :=
  mkExc TclError "can't delete Tcl command" [].

Definition world_destroy_fails : World unit :=
  mkWorld tt script_globals ∅
    (fun op => match op with OpDestroy => Some cannot_destroy | _ => None end)
    "ok" [].

Definition app_windows : gmap nat toplevel :=
  <[ 0 := mkTop Normal true ]> {[ 1 := mkTop Withdrawn false ]}.

Definition main_boom_late : M unit unit :=
  fun w => (Raise boom, set_windows app_windows w).

Definition failed_late : World unit :=
  set_windows app_windows (record EvCallMain world_destroy_fails).

(** * Properties *)

Section Strings.

Lemma append_assoc (a b c : string) : (a +:+ b) +:+ c = a +:+ b +:+ c.
Proof.
  induction a as [| x a IH]; [reflexivity |].
  change (String x ((a +:+ b) +:+ c) = String x (a +:+ b +:+ c)).
  now rewrite IH.
Qed.

Lemma append_nil_r (a : string) : a +:+ EmptyString = a.
Proof.
  induction a as [| x a IH]; [reflexivity |].
  change (String x (a +:+ EmptyString) = String x a). now rewrite IH.
Qed.

Lemma contains_suffix (p s : string) : contains (p +:+ s) s.
Proof. exists p, EmptyString. now rewrite append_nil_r. Qed.

Lemma contains_trans (a b c : string) :
  contains a b -> contains b c -> contains a c.
Proof.
  intros (p & q & ->) (p' & q' & ->).
  exists (p +:+ p'), (q' +:+ q). now rewrite !append_assoc.
Qed.

(** The traceback text ends with the exception's own message. *)
Lemma format_exc_has_message (e : pyexc) : contains (format_exc e) (exc_str e).
Proof.
  unfold format_exc, format_exception_only.
  destruct (String.eqb_spec (exc_str e) EmptyString) as [-> | _].
  - exists ("Traceback (most recent call last):" +:+ LF
            +:+ String.concat EmptyString (format_frame <$> exc_tb e)
            +:+ class_name (exc_class e) +:+ LF), EmptyString.
    now rewrite append_nil_r.
  - exists ("Traceback (most recent call last):" +:+ LF
            +:+ String.concat EmptyString (format_frame <$> exc_tb e)
            +:+ class_name (exc_class e) +:+ ": "), LF.
    now rewrite !append_assoc.
Qed.

Lemma dialog_body_has_log_path (err : string) :
  contains (dialog_body err) "logs/avantixrpa.log".
Proof.
  exists (message_line1 +:+ LF +:+ "詳しくは "),
         (" を確認してください。" +:+ LF +:+ LF +:+ err).
  reflexivity.
Qed.

Lemma dialog_body_has_trace (err : string) : contains (dialog_body err) err.
Proof. unfold dialog_body. rewrite <- append_assoc. apply contains_suffix. Qed.

End Strings.

(** ** Reading a world that was just written *)

Section Fields.

Context {App : Type}.
Implicit Types (w : World App) (ev : event).

Lemma app_record ev w : app (record ev w) = app w.
Proof. reflexivity. Qed.
Lemma globals_record ev w : globals (record ev w) = globals w.
Proof. reflexivity. Qed.
Lemma windows_record ev w : windows (record ev w) = windows w.
Proof. reflexivity. Qed.
Lemma faults_record ev w : faults (record ev w) = faults w.
Proof. reflexivity. Qed.
Lemma reply_record ev w : dialog_reply (record ev w) = dialog_reply w.
Proof. reflexivity. Qed.
Lemma events_record ev w : events (record ev w) = events w ++ [ev].
Proof. reflexivity. Qed.

Lemma app_set_windows ws w : app (set_windows ws w) = app w.
Proof. reflexivity. Qed.
Lemma globals_set_windows ws w : globals (set_windows ws w) = globals w.
Proof. reflexivity. Qed.
Lemma windows_set_windows ws w : windows (set_windows ws w) = ws.
Proof. reflexivity. Qed.
Lemma faults_set_windows ws w : faults (set_windows ws w) = faults w.
Proof. reflexivity. Qed.
Lemma reply_set_windows ws w :
  dialog_reply (set_windows ws w) = dialog_reply w.
Proof. reflexivity. Qed.
Lemma events_set_windows ws w : events (set_windows ws w) = events w.
Proof. reflexivity. Qed.

Lemma app_set_globals g w : app (set_globals g w) = app w.
Proof. reflexivity. Qed.
Lemma globals_set_globals g w : globals (set_globals g w) = g.
Proof. reflexivity. Qed.
Lemma windows_set_globals g w : windows (set_globals g w) = windows w.
Proof. reflexivity. Qed.
Lemma faults_set_globals g w : faults (set_globals g w) = faults w.
Proof. reflexivity. Qed.
Lemma reply_set_globals g w :
  dialog_reply (set_globals g w) = dialog_reply w.
Proof. reflexivity. Qed.
Lemma events_set_globals g w : events (set_globals g w) = events w.
Proof. reflexivity. Qed.

(** Two worlds with the same fields are the same world. *)
Lemma world_eq w w' :
  app w = app w' -> globals w = globals w' -> windows w = windows w' ->
  faults w = faults w' -> dialog_reply w = dialog_reply w' ->
  events w = events w' -> w = w'.
Proof. destruct w, w'. simpl. intros. now subst. Qed.

End Fields.

Create Rewrite HintDb world.

#[global] Hint Rewrite
  @app_record @globals_record @windows_record @faults_record @reply_record
  @events_record
  @app_set_windows @globals_set_windows @windows_set_windows
  @faults_set_windows @reply_set_windows @events_set_windows
  @app_set_globals @globals_set_globals @windows_set_globals
  @faults_set_globals @reply_set_globals @events_set_globals : world.

Ltac wsimpl :=
  repeat (progress (cbv beta iota delta [fst snd];
                    cbn [app globals windows faults dialog_reply events];
                    autorewrite with world)).

Ltac wsimpl_in H :=
  repeat (progress (cbv beta iota delta [fst snd] in H;
                    autorewrite with world in H)).

Section Runs.

Context {App : Type}.
Implicit Types (w : World App) (main : M App unit) (e : pyexc).

Lemma emitted_app w w' l : events w' = events w ++ l -> emitted w w' = l.
Proof. intros H. unfold emitted. rewrite H. apply drop_app_length. Qed.

Lemma emitted_self w : emitted w w = [].
Proof. unfold emitted. apply drop_all. Qed.

(** *** The three ways the [try] statement can go *)

Lemma guard_returns main w w1 :
  main (record EvCallMain w) = (Ret tt, w1) -> guard main w = (Ret tt, w1).
Proof. intros H. unfold guard, try_except, call_main. now rewrite H. Qed.

Lemma guard_caught main w e w1 :
  main (record EvCallMain w) = (Raise e, w1) ->
  issubclass (exc_class e) Exception = true ->
  guard main w = handler e w1.
Proof. intros H Hc. unfold guard, try_except, call_main. now rewrite H, Hc. Qed.

Lemma guard_uncaught main w e w1 :
  main (record EvCallMain w) = (Raise e, w1) ->
  issubclass (exc_class e) Exception = false ->
  guard main w = (Raise e, w1).
Proof. intros H Hc. unfold guard, try_except, call_main. now rewrite H, Hc. Qed.

(** *** The library calls, one by one *)

Lemma tk_Tk_run w :
  faults w OpTk = None ->
  tk_Tk w =
  (Ret (fresh (dom (windows w))),
   record (EvTk (fresh (dom (windows w))))
     (set_windows
        (<[fresh (dom (windows w)) := mkTop Normal false]> (windows w)) w)).
Proof. intros H. unfold tk_Tk. now rewrite H. Qed.

Lemma withdraw_run w r t :
  faults w OpWithdraw = None -> windows w !! r = Some t ->
  withdraw r w =
  (Ret tt,
   record (EvWithdraw r)
     (set_windows (<[r := mkTop Withdrawn false]> (windows w)) w)).
Proof. intros H Hr. unfold withdraw. now rewrite H, Hr. Qed.

Lemma showerror_run w title body :
  faults w OpShowError = None ->
  showerror title body w =
  (Ret (dialog_reply w),
   record (EvShowError title body) (set_windows (draw <$> windows w) w)).
Proof. intros H. unfold showerror. now rewrite H. Qed.

Lemma destroy_run w r t :
  faults w OpDestroy = None -> windows w !! r = Some t ->
  destroy r w =
  (Ret tt, record (EvDestroy r) (set_windows (delete r (windows w)) w)).
Proof. intros H Hr. unfold destroy. now rewrite H, Hr. Qed.

(** While a dialog is up, a window left in state [Normal] is drawn. *)
Lemma showerror_draws_normal w title body r :
  faults w OpShowError = None ->
  windows w !! r = Some (mkTop Normal false) ->
  windows (snd (showerror title body w)) !! r = Some (mkTop Normal true).
Proof.
  intros H Hr. rewrite showerror_run by assumption. wsimpl.
  now rewrite lookup_fmap, Hr.
Qed.

Lemma fresh_window (ws : gmap nat toplevel) : ws !! fresh (dom ws) = None.
Proof. apply not_elem_of_dom, is_fresh. Qed.

(** The window table after a window that was not there is created,
    withdrawn, kept through the dialog's event loop and destroyed. *)
Lemma transient_window (ws : gmap nat toplevel) (r : nat) :
  ws !! r = None ->
  delete r (draw <$> <[r := mkTop Withdrawn false]>
                       (<[r := mkTop Normal false]> ws))
  = draw <$> ws.
Proof.
  intros Hr. rewrite insert_insert_eq, fmap_insert, delete_insert_eq.
  apply delete_id. now rewrite lookup_fmap, Hr.
Qed.

(** *** The handler, call by call *)

(** With every Tk call working, the handler goes through four worlds: after
    the window is created, after it is withdrawn, after the dialog, after the
    window is destroyed. *)
Lemma handler_steps e w :
  gui_ok w ->
  exists (r : nat) (wa wb wc wd : World App),
    r = fresh (dom (windows w)) /\
    tk_Tk (snd (assign "err" (VStr (format_exc e)) w)) = (Ret r, wa) /\
    withdraw r (snd (assign "root" (VTk r) wa)) = (Ret tt, wb) /\
    showerror dialog_title (dialog_body (format_exc e)) wb
      = (Ret (dialog_reply w), wc) /\
    destroy r wc = (Ret tt, wd) /\
    handler e w = (Ret tt, wd) /\
    windows wa = <[r := mkTop Normal false]> (windows w) /\
    windows wb = <[r := mkTop Withdrawn false]> (windows w) /\
    windows wc = <[r := mkTop Withdrawn false]> (draw <$> windows w) /\
    windows wd = draw <$> windows w /\
    events wd = events w ++ [EvTk r; EvWithdraw r;
                             EvShowError dialog_title
                                         (dialog_body (format_exc e));
                             EvDestroy r].
Proof.
  intros Hok.
  eexists _, _, _, _, _.
  split; [reflexivity |].
  split; [rewrite tk_Tk_run by apply Hok; reflexivity |].
  split; [eapply withdraw_run; [apply Hok | apply lookup_insert_eq] |].
  split; [rewrite showerror_run by apply Hok; reflexivity |].
  split.
  { eapply destroy_run; [apply Hok |].
    wsimpl. rewrite lookup_fmap, lookup_insert_eq. reflexivity. }
  split.
  { unfold handler, bind, assign.
    rewrite tk_Tk_run by apply Hok. cbv beta iota.
    erewrite withdraw_run by (try apply Hok; apply lookup_insert_eq).
    cbv beta iota.
    rewrite showerror_run by apply Hok. cbv beta iota.
    erewrite destroy_run; [reflexivity | apply Hok |].
    wsimpl. rewrite lookup_fmap, lookup_insert_eq. reflexivity. }
  unfold assign. wsimpl. rewrite insert_insert_eq, fmap_insert.
  repeat split.
  - rewrite delete_insert_eq. apply delete_id.
    now rewrite lookup_fmap, fresh_window.
  - now rewrite <- !List.app_assoc.
Qed.

(** The world the handler leaves when every Tk call works. *)
Lemma handler_final e w :
  gui_ok w ->
  handler e w =
  (Ret tt,
   mkWorld (app w)
     (<["root" := VTk (fresh (dom (windows w)))]>
        (<["err" := VStr (format_exc e)]> (globals w)))
     (draw <$> windows w) (faults w) (dialog_reply w)
     (events w ++ [EvTk (fresh (dom (windows w)));
                   EvWithdraw (fresh (dom (windows w)));
                   EvShowError dialog_title (dialog_body (format_exc e));
                   EvDestroy (fresh (dom (windows w)))])).
Proof.
  intros Hok. unfold handler, bind, assign.
  rewrite tk_Tk_run by apply Hok. cbv beta iota.
  erewrite withdraw_run by (try apply Hok; apply lookup_insert_eq).
  cbv beta iota.
  rewrite showerror_run by apply Hok. cbv beta iota.
  erewrite destroy_run; [| apply Hok |].
  2: { wsimpl. rewrite lookup_fmap, lookup_insert_eq. reflexivity. }
  f_equal. apply world_eq; wsimpl; try reflexivity.
  - apply transient_window, fresh_window.
  - now rewrite <- !List.app_assoc.
Qed.

(** Whatever the Tk calls do, the handler only adds events, and what it
    adds is the beginning of its four calls: it stops at the first call that
    raises. *)
Lemma handler_events e w :
  exists l k : list event,
    events (snd (handler e w)) = events w ++ l /\
    l ++ k = [EvTk (fresh (dom (windows w)));
              EvWithdraw (fresh (dom (windows w)));
              EvShowError dialog_title (dialog_body (format_exc e));
              EvDestroy (fresh (dom (windows w)))].
Proof.
  unfold handler, bind, assign, tk_Tk. wsimpl.
  destruct (faults w OpTk); wsimpl.
  { eexists [], _. split; [now rewrite List.app_nil_r | reflexivity]. }
  unfold withdraw. wsimpl. rewrite lookup_insert_eq.
  destruct (faults w OpWithdraw); wsimpl.
  { eexists [_], _. split; reflexivity. }
  unfold showerror. wsimpl.
  destruct (faults w OpShowError); wsimpl.
  { rewrite <- !List.app_assoc. eexists [_; _], _. split; reflexivity. }
  unfold destroy. wsimpl. rewrite fmap_insert, lookup_insert_eq.
  destruct (faults w OpDestroy); wsimpl; rewrite <- !List.app_assoc.
  - eexists [_; _; _], _. split; reflexivity.
  - eexists [_; _; _; _], []. split; reflexivity.
Qed.

(** So a dialog among them has the script's title and body, *)
Lemma handler_dialogs e w l :
  events (snd (handler e w)) = events w ++ l ->
  forall t b, In (EvShowError t b) l ->
              t = dialog_title /\ b = dialog_body (format_exc e).
Proof.
  intros Hl t b Hin.
  destruct (handler_events e w) as (l' & k & Hl' & Hfull).
  rewrite Hl in Hl'. apply app_inv_head in Hl'. subst l'.
  assert (Hin' : In (EvShowError t b) (l ++ k))
    by (apply in_or_app; now left).
  rewrite Hfull in Hin'.
  destruct Hin' as [H | [H | [H | [H | []]]]]; try discriminate.
  now injection H as <- <-.
Qed.

(** and none of them is a call of [main]. *)
Lemma handler_no_retry e w l :
  events (snd (handler e w)) = events w ++ l -> count is_call_main l = 0.
Proof.
  intros Hl.
  destruct (handler_events e w) as (l' & k & Hl' & Hfull).
  rewrite Hl in Hl'. apply app_inv_head in Hl'. subst l'.
  assert (Hall : count is_call_main (l ++ k) = 0) by now rewrite Hfull.
  unfold count in *. rewrite List.filter_app, List.length_app in Hall. lia.
Qed.

(** Whatever the Tk calls do, the handler leaves alone what the application
    owns, and in the module namespace binds its own two variables only. *)
Lemma handler_keeps e w :
  app (snd (handler e w)) = app w /\
  faults (snd (handler e w)) = faults w /\
  dialog_reply (snd (handler e w)) = dialog_reply w /\
  forall k : string,
    k <> "err" -> k <> "root" ->
    globals (snd (handler e w)) !! k = globals w !! k.
Proof.
  unfold handler, bind, assign, tk_Tk. wsimpl.
  destruct (faults w OpTk); wsimpl.
  { repeat split. intros k Herr _. now rewrite lookup_insert_ne. }
  unfold withdraw. wsimpl. rewrite lookup_insert_eq.
  destruct (faults w OpWithdraw); wsimpl.
  { repeat split. intros k Herr Hroot. now rewrite !lookup_insert_ne. }
  unfold showerror. wsimpl.
  destruct (faults w OpShowError); wsimpl.
  { repeat split. intros k Herr Hroot. now rewrite !lookup_insert_ne. }
  unfold destroy. wsimpl. rewrite fmap_insert, lookup_insert_eq.
  destruct (faults w OpDestroy); wsimpl;
    (repeat split; intros k Herr Hroot; now rewrite !lookup_insert_ne).
Qed.

Lemma handler_emits e w :
  exists l : list event, events (snd (handler e w)) = events w ++ l.
Proof. destruct (handler_events e w) as (l & _ & Hl & _). now exists l. Qed.

(** *** The module body *)

Lemma module_body_script main w :
  globals w !! "__name__" = Some (VStr "__main__") ->
  module_body main w = guard main w.
Proof. intros H. unfold module_body. now rewrite H. Qed.

End Runs.

(** * The launcher guard *)

Section Guard.

Context {App : Type}.
Implicit Types (w : World App) (main : M App unit) (e : pyexc).

(** C1, as amended.  When [main] raises an exception whose class derives
    from [Exception], and the Tk calls of the handler return normally, the
    guard catches it: the [try] statement ends normally, and after the
    failure exactly one error dialog is shown. *)
Theorem guard_catches_Exception main w e w1 :
  main (record EvCallMain w) = (Raise e, w1) ->
  issubclass (exc_class e) Exception = true ->
  gui_ok w1 ->
  exists w2 : World App,
    guard main w = (Ret tt, w2) /\ count is_dialog (emitted w1 w2) = 1.
Proof.
  intros Hmain Hcls Hok.
  rewrite (guard_caught _ _ _ _ Hmain Hcls), (handler_final _ _ Hok).
  eexists. split; [reflexivity |].
  erewrite emitted_app by reflexivity. reflexivity.
Qed.

(** C2.  For every exception [main] raises, a dialog the guard shows has a
    body that contains the log file path ["logs/avantixrpa.log"], the whole
    traceback text, and with it the exception's message; and when the
    exception is caught and the Tk calls work, the guard does show a
    dialog. *)
Theorem dialog_body_contents main w e w1 :
  main (record EvCallMain w) = (Raise e, w1) ->
  (forall t b,
      In (EvShowError t b) (emitted w1 (snd (guard main w))) ->
      contains b "logs/avantixrpa.log" /\
      contains b (format_exc e) /\
      contains b (exc_str e))
  /\ (issubclass (exc_class e) Exception = true -> gui_ok w1 ->
      exists t b, In (EvShowError t b) (emitted w1 (snd (guard main w)))).
Proof.
  intros Hmain. split.
  - intros t b Hin.
    destruct (issubclass (exc_class e) Exception) eqn:Hcls.
    + rewrite (guard_caught _ _ _ _ Hmain Hcls) in Hin.
      destruct (handler_emits e w1) as (l & Hev).
      rewrite (emitted_app _ _ _ Hev) in Hin.
      destruct (handler_dialogs _ _ _ Hev _ _ Hin) as [_ ->].
      split; [apply dialog_body_has_log_path |].
      split; [apply dialog_body_has_trace |].
      eapply contains_trans;
        [apply dialog_body_has_trace | apply format_exc_has_message].
    + rewrite (guard_uncaught _ _ _ _ Hmain Hcls) in Hin. wsimpl_in Hin.
      rewrite emitted_self in Hin. destruct Hin.
  - intros Hcls Hok.
    rewrite (guard_caught _ _ _ _ Hmain Hcls), (handler_final _ _ Hok). wsimpl.
    erewrite emitted_app by reflexivity.
    eexists _, _. right. right. left. reflexivity.
Qed.

(** C3, as amended.  On the success path the guard creates and destroys no
    window.  On the failure path (an exception deriving from [Exception],
    the Tk calls returning normally) one window, not there before, is
    created, withdrawn, the dialog is shown, and right after the dialog
    returns, whatever it answers, the window is destroyed: created once,
    destroyed once, gone at the end. *)
Theorem host_window_scoped main w :
  (forall w1,
      main (record EvCallMain w) = (Ret tt, w1) ->
      guard main w = (Ret tt, w1) /\ emitted w1 (snd (guard main w)) = [])
  /\
  (forall e w1,
      main (record EvCallMain w) = (Raise e, w1) ->
      issubclass (exc_class e) Exception = true ->
      gui_ok w1 ->
      exists (r : nat) (w2 : World App),
        guard main w = (Ret tt, w2) /\
        windows w1 !! r = None /\
        emitted w1 w2 =
          [EvTk r; EvWithdraw r;
           EvShowError dialog_title (dialog_body (format_exc e));
           EvDestroy r] /\
        count is_create (emitted w1 w2) = 1 /\
        count is_destroy (emitted w1 w2) = 1 /\
        windows w2 !! r = None).
Proof.
  split.
  - intros w1 Hmain. rewrite (guard_returns _ _ _ Hmain). wsimpl.
    now rewrite emitted_self.
  - intros e w1 Hmain Hcls Hok.
    rewrite (guard_caught _ _ _ _ Hmain Hcls), (handler_final _ _ Hok).
    eexists _, _. split; [reflexivity |].
    split; [apply fresh_window |].
    erewrite emitted_app by reflexivity.
    repeat split. wsimpl. now rewrite lookup_fmap, fresh_window.
Qed.

(** C4.  When [main] returns normally the guard does nothing more: the
    [try] statement ends normally in the very world [main] left, so no
    dialog is shown and no window is created, and the process ends. *)
Theorem normal_return_no_action main w w1 :
  main (record EvCallMain w) = (Ret tt, w1) ->
  guard main w = (Ret tt, w1) /\
  emitted w1 (snd (guard main w)) = [] /\
  windows (snd (guard main w)) = windows w1 /\
  interpreter_exit (fst (guard main w)) = ExitSuccess.
Proof.
  intros Hmain. rewrite (guard_returns _ _ _ Hmain). wsimpl.
  now rewrite emitted_self.
Qed.

(** C5.  A dialog the guard shows has the fixed title, which names the
    application and a startup error, and a body made of two fixed lines, a
    blank line and the traceback text as [traceback.format_exc] gives it; on
    the failure path that dialog is shown. *)
Theorem dialog_layout main w e w1 :
  main (record EvCallMain w) = (Raise e, w1) ->
  (forall t b,
      In (EvShowError t b) (emitted w1 (snd (guard main w))) ->
      t = "AVANTIXRPA" +:+ " " +:+ "起動エラー" /\
      b = message_line1 +:+ LF +:+ message_line2 +:+ LF +:+ LF
          +:+ format_exc e)
  /\ single_line message_line1 = true
  /\ single_line message_line2 = true
  /\ (issubclass (exc_class e) Exception = true -> gui_ok w1 ->
      In (EvShowError dialog_title (dialog_body (format_exc e)))
         (emitted w1 (snd (guard main w)))).
Proof.
  intros Hmain. split; [| split; [reflexivity | split; [reflexivity |]]].
  - intros t b Hin.
    destruct (issubclass (exc_class e) Exception) eqn:Hcls.
    + rewrite (guard_caught _ _ _ _ Hmain Hcls) in Hin.
      destruct (handler_emits e w1) as (l & Hev).
      rewrite (emitted_app _ _ _ Hev) in Hin.
      destruct (handler_dialogs _ _ _ Hev _ _ Hin) as [-> ->].
      split; [reflexivity |].
      unfold dialog_body. now rewrite !append_assoc.
    + rewrite (guard_uncaught _ _ _ _ Hmain Hcls) in Hin. wsimpl_in Hin.
      rewrite emitted_self in Hin. destruct Hin.
  - intros Hcls Hok.
    rewrite (guard_caught _ _ _ _ Hmain Hcls), (handler_final _ _ Hok). wsimpl.
    erewrite emitted_app by reflexivity.
    right. right. left. reflexivity.
Qed.

(** C6.  On the failure path, whatever the Tk calls do, the handler leaves
    everything the application owns as [main] left it, and in the module
    namespace it binds its own two variables, [err] and [root], and nothing
    else.  When the Tk calls work, the one window it creates was not there
    before and is gone afterwards, so that the window table ends as showing
    the dialog alone would leave it; and one dialog is shown. *)
Theorem handler_frame main w e w1 :
  main (record EvCallMain w) = (Raise e, w1) ->
  issubclass (exc_class e) Exception = true ->
  (app (snd (guard main w)) = app w1 /\
   faults (snd (guard main w)) = faults w1 /\
   dialog_reply (snd (guard main w)) = dialog_reply w1 /\
   forall k : string,
     k <> "err" -> k <> "root" ->
     globals (snd (guard main w)) !! k = globals w1 !! k)
  /\
  (gui_ok w1 ->
   exists r : nat,
     fst (guard main w) = Ret tt /\
     emitted w1 (snd (guard main w)) =
       [EvTk r; EvWithdraw r;
        EvShowError dialog_title (dialog_body (format_exc e));
        EvDestroy r] /\
     windows w1 !! r = None /\
     windows (snd (guard main w)) !! r = None /\
     windows (snd (guard main w)) =
       windows (snd (showerror dialog_title (dialog_body (format_exc e))
                               w1))).
Proof.
  intros Hmain Hcls. rewrite (guard_caught _ _ _ _ Hmain Hcls).
  split; [apply handler_keeps |].
  intros Hok. rewrite (handler_final _ _ Hok). eexists.
  split; [reflexivity |].
  erewrite emitted_app by reflexivity.
  split; [reflexivity |]. split; [apply fresh_window |].
  rewrite showerror_run by apply Hok. wsimpl.
  split; [| reflexivity]. now rewrite lookup_fmap, fresh_window.
Qed.

(** C7.  A failure the guard catches is not retried: after the one call of
    [main] the guard runs the handler and nothing else, and whatever the Tk
    calls do the handler never calls [main].  It is not raised again: when
    the Tk calls work the [try] statement ends normally, so the script ends
    with nothing raised, no [SystemExit] either, and the interpreter exits
    with success. *)
Theorem caught_failure_ends_quietly main w e w1 :
  main (record EvCallMain w) = (Raise e, w1) ->
  issubclass (exc_class e) Exception = true ->
  guard main w = handler e w1 /\
  count is_call_main (emitted w1 (snd (guard main w))) = 0 /\
  (gui_ok w1 ->
   fst (guard main w) = Ret tt /\
   interpreter_exit (fst (guard main w)) = ExitSuccess).
Proof.
  intros Hmain Hcls. rewrite (guard_caught _ _ _ _ Hmain Hcls).
  split; [reflexivity |]. split.
  - destruct (handler_emits e w1) as (l & Hl).
    rewrite (emitted_app _ _ _ Hl). eapply handler_no_retry, Hl.
  - intros Hok. now rewrite (handler_final _ _ Hok).
Qed.

(** C8.  [SystemExit] and [KeyboardInterrupt] do not derive from
    [Exception]; and when [main] raises an exception whose class does not
    derive from [Exception], the guard does not catch it: the exception
    leaves the [try] statement, in the very world [main] left, so no dialog
    is shown and no window is created. *)
Theorem non_Exception_propagates main w e w1 :
  main (record EvCallMain w) = (Raise e, w1) ->
  issubclass (exc_class e) Exception = false ->
  issubclass SystemExit Exception = false /\
  issubclass KeyboardInterrupt Exception = false /\
  guard main w = (Raise e, w1) /\
  emitted w1 (snd (guard main w)) = [] /\
  windows (snd (guard main w)) = windows w1 /\
  interpreter_exit (fst (guard main w)) = ExitUncaught e.
Proof.
  intros Hmain Hcls. rewrite (guard_uncaught _ _ _ _ Hmain Hcls). wsimpl.
  now rewrite emitted_self.
Qed.

(** C9.  On the failure path the handler's Tk calls go: create the window,
    withdraw it, show the dialog, destroy the window, in this order with
    nothing between.  The window is created in state [Normal] but not drawn;
    it is withdrawn before any event loop runs; it stays withdrawn and not
    drawn while the dialog is up; then it is gone.  So in no world the
    handler passes through is the window on the screen. *)
Theorem host_window_never_on_screen main w e w1 :
  main (record EvCallMain w) = (Raise e, w1) ->
  issubclass (exc_class e) Exception = true ->
  gui_ok w1 ->
  exists (r : nat) (wa wb wc wd : World App),
    tk_Tk (snd (assign "err" (VStr (format_exc e)) w1)) = (Ret r, wa) /\
    withdraw r (snd (assign "root" (VTk r) wa)) = (Ret tt, wb) /\
    showerror dialog_title (dialog_body (format_exc e)) wb
      = (Ret (dialog_reply w1), wc) /\
    destroy r wc = (Ret tt, wd) /\
    guard main w = (Ret tt, wd) /\
    windows wa !! r = Some (mkTop Normal false) /\
    windows wb !! r = Some (mkTop Withdrawn false) /\
    windows wc !! r = Some (mkTop Withdrawn false) /\
    windows wd !! r = None /\
    emitted w1 wd =
      [EvTk r; EvWithdraw r;
       EvShowError dialog_title (dialog_body (format_exc e));
       EvDestroy r].
Proof.
  intros Hmain Hcls Hok.
  destruct (handler_steps e w1 Hok)
    as (r & wa & wb & wc & wd & Hr & Ha & Hb & Hc & Hd & Hh
        & Hwa & Hwb & Hwc & Hwd & Hev).
  exists r, wa, wb, wc, wd.
  rewrite (guard_caught _ _ _ _ Hmain Hcls), Hwa, Hwb, Hwc, Hwd.
  rewrite !lookup_insert_eq, lookup_fmap, (emitted_app _ _ _ Hev).
  subst r. rewrite fresh_window. repeat split; assumption.
Qed.

End Guard.

(** * When a Tk call of the handler raises *)

Section Faults.

Context {App : Type}.
Implicit Types (w : World App) (main : M App unit) (e x : pyexc).

(** *** The library calls, when they fail *)

Lemma tk_Tk_fails w x : faults w OpTk = Some x -> tk_Tk w = (Raise x, w).
Proof. intros H. unfold tk_Tk. now rewrite H. Qed.

Lemma withdraw_fails w r x :
  faults w OpWithdraw = Some x -> withdraw r w = (Raise x, w).
Proof. intros H. unfold withdraw. now rewrite H. Qed.

Lemma showerror_fails w title body x :
  faults w OpShowError = Some x -> showerror title body w = (Raise x, w).
Proof. intros H. unfold showerror. now rewrite H. Qed.

Lemma destroy_fails w r x :
  faults w OpDestroy = Some x -> destroy r w = (Raise x, w).
Proof. intros H. unfold destroy. now rewrite H. Qed.

(** *** The handler, stopped at its first failing call *)

Lemma handler_Tk_fails e w x :
  faults w OpTk = Some x ->
  handler e w =
  (Raise x, set_globals (<["err" := VStr (format_exc e)]> (globals w)) w).
Proof.
  intros HTk. unfold handler, bind, assign.
  now rewrite (tk_Tk_fails _ x) by (wsimpl; exact HTk).
Qed.

Lemma handler_withdraw_fails e w x :
  faults w OpTk = None -> faults w OpWithdraw = Some x ->
  handler e w =
  (Raise x,
   mkWorld (app w)
     (<["root" := VTk (fresh (dom (windows w)))]>
        (<["err" := VStr (format_exc e)]> (globals w)))
     (<[fresh (dom (windows w)) := mkTop Normal false]> (windows w))
     (faults w) (dialog_reply w)
     (events w ++ [EvTk (fresh (dom (windows w)))])).
Proof.
  intros HTk Hwd. unfold handler, bind, assign.
  rewrite tk_Tk_run by (wsimpl; exact HTk). cbv beta iota.
  rewrite (withdraw_fails _ _ x) by (wsimpl; exact Hwd).
  reflexivity.
Qed.

Lemma handler_showerror_fails e w x :
  faults w OpTk = None -> faults w OpWithdraw = None ->
  faults w OpShowError = Some x ->
  handler e w =
  (Raise x,
   mkWorld (app w)
     (<["root" := VTk (fresh (dom (windows w)))]>
        (<["err" := VStr (format_exc e)]> (globals w)))
     (<[fresh (dom (windows w)) := mkTop Withdrawn false]> (windows w))
     (faults w) (dialog_reply w)
     (events w ++ [EvTk (fresh (dom (windows w)));
                   EvWithdraw (fresh (dom (windows w)))])).
Proof.
  intros HTk Hwd Hse. unfold handler, bind, assign.
  rewrite tk_Tk_run by (wsimpl; exact HTk). cbv beta iota.
  erewrite withdraw_run by (wsimpl; first [exact Hwd | apply lookup_insert_eq]).
  cbv beta iota.
  rewrite (showerror_fails _ _ _ x) by (wsimpl; exact Hse).
  f_equal. apply world_eq; wsimpl; try reflexivity.
  - apply insert_insert_eq.
  - now rewrite <- !List.app_assoc.
Qed.

Lemma handler_destroy_fails e w x :
  faults w OpTk = None -> faults w OpWithdraw = None ->
  faults w OpShowError = None -> faults w OpDestroy = Some x ->
  handler e w =
  (Raise x,
   mkWorld (app w)
     (<["root" := VTk (fresh (dom (windows w)))]>
        (<["err" := VStr (format_exc e)]> (globals w)))
     (<[fresh (dom (windows w)) := mkTop Withdrawn false]>
        (draw <$> windows w))
     (faults w) (dialog_reply w)
     (events w ++ [EvTk (fresh (dom (windows w)));
                   EvWithdraw (fresh (dom (windows w)));
                   EvShowError dialog_title (dialog_body (format_exc e))])).
Proof.
  intros HTk Hwd Hse Hd. unfold handler, bind, assign.
  rewrite tk_Tk_run by (wsimpl; exact HTk). cbv beta iota.
  erewrite withdraw_run by (wsimpl; first [exact Hwd | apply lookup_insert_eq]).
  cbv beta iota.
  rewrite showerror_run by (wsimpl; exact Hse). cbv beta iota.
  rewrite (destroy_fails _ _ x) by (wsimpl; exact Hd).
  f_equal. apply world_eq; wsimpl; try reflexivity.
  - now rewrite insert_insert_eq, fmap_insert.
  - now rewrite <- !List.app_assoc.
Qed.

Lemma gui_ok_ops w :
  faults w OpTk = None -> faults w OpWithdraw = None ->
  faults w OpShowError = None -> faults w OpDestroy = None -> gui_ok w.
Proof. intros ? ? ? ? []; assumption. Qed.

End Faults.

(** The five ways the handler can go. *)
Ltac handler_cases e w :=
  let x := fresh "x" in
  let HTk := fresh "HTk" in
  let Hwd := fresh "Hwd" in
  let Hse := fresh "Hse" in
  let Hd := fresh "Hd" in
  destruct (faults w OpTk) as [x |] eqn:HTk;
  [ rewrite (handler_Tk_fails e w x HTk)
  | destruct (faults w OpWithdraw) as [x |] eqn:Hwd;
    [ rewrite (handler_withdraw_fails e w x HTk Hwd)
    | destruct (faults w OpShowError) as [x |] eqn:Hse;
      [ rewrite (handler_showerror_fails e w x HTk Hwd Hse)
      | destruct (faults w OpDestroy) as [x |] eqn:Hd;
        [ rewrite (handler_destroy_fails e w x HTk Hwd Hse Hd)
        | rewrite (handler_final e w (gui_ok_ops w HTk Hwd Hse Hd)) ] ] ] ].

(** * The script under every behaviour of Tk *)

Section Robustness.

Context {App : Type}.
Implicit Types (w : World App) (main : M App unit) (e x : pyexc).

(** One turn of the event loop changes no window's state, and takes no
    window off the screen. *)
Lemma draw_keeps (t : toplevel) :
  wm (draw t) = wm t /\ (viewable t = true -> viewable (draw t) = true).
Proof. destruct t as [[] v]; split; trivial. Qed.


(** A failure of [main] is never swallowed in silence.  If [main] raises and
    the [try] statement still ends normally, then the exception derived from
    [Exception], every Tk call of the handler worked, and the dialog was
    shown, between the creation and the destruction of the host window. *)
Theorem failure_never_silent main w e w1 w2 :
  main (record EvCallMain w) = (Raise e, w1) ->
  guard main w = (Ret tt, w2) ->
  issubclass (exc_class e) Exception = true /\
  gui_ok w1 /\
  emitted w1 w2 =
    [EvTk (fresh (dom (windows w1)));
     EvWithdraw (fresh (dom (windows w1)));
     EvShowError dialog_title (dialog_body (format_exc e));
     EvDestroy (fresh (dom (windows w1)))].
Proof.
  intros Hmain.
  destruct (issubclass (exc_class e) Exception) eqn:Hcls.
  2: { rewrite (guard_uncaught _ _ _ _ Hmain Hcls). discriminate. }
  rewrite (guard_caught _ _ _ _ Hmain Hcls).
  handler_cases e w1; intros Hrun; try discriminate Hrun.
  injection Hrun as <-. split; [reflexivity |].
  split; [now apply gui_ok_ops |].
  now erewrite emitted_app by reflexivity.
Qed.

(** Whatever [main] raises and whatever the Tk calls do, what the guard does
    after the failure is a beginning of: create the window, withdraw it,
    show the dialog, destroy the window.  So no dialog is shown before the
    window is withdrawn, and the window is not destroyed before the dialog
    has returned. *)
Theorem handler_calls_in_order main w e w1 :
  main (record EvCallMain w) = (Raise e, w1) ->
  exists k : list event,
    emitted w1 (snd (guard main w)) ++ k =
      [EvTk (fresh (dom (windows w1)));
       EvWithdraw (fresh (dom (windows w1)));
       EvShowError dialog_title (dialog_body (format_exc e));
       EvDestroy (fresh (dom (windows w1)))].
Proof.
  intros Hmain.
  destruct (issubclass (exc_class e) Exception) eqn:Hcls.
  - rewrite (guard_caught _ _ _ _ Hmain Hcls).
    destruct (handler_events e w1) as (l & k & Hl & Hfull).
    exists k. now rewrite (emitted_app _ _ _ Hl).
  - rewrite (guard_uncaught _ _ _ _ Hmain Hcls). wsimpl.
    rewrite emitted_self. now eexists.
Qed.

(** When the guard has caught a failure and an exception leaves it all the
    same, that exception is the one raised by the first Tk call of the
    handler that failed, not the failure of [main]. *)
Theorem escaping_exception_is_from_Tk main w e w1 x w2 :
  main (record EvCallMain w) = (Raise e, w1) ->
  issubclass (exc_class e) Exception = true ->
  guard main w = (Raise x, w2) ->
  faults w1 OpTk = Some x \/
  (faults w1 OpTk = None /\ faults w1 OpWithdraw = Some x) \/
  (faults w1 OpTk = None /\ faults w1 OpWithdraw = None /\
   faults w1 OpShowError = Some x) \/
  (faults w1 OpTk = None /\ faults w1 OpWithdraw = None /\
   faults w1 OpShowError = None /\ faults w1 OpDestroy = Some x).
Proof.
  intros Hmain Hcls. rewrite (guard_caught _ _ _ _ Hmain Hcls).
  handler_cases e w1; intros Hrun; try discriminate Hrun;
    injection Hrun as <- _; auto 10.
Qed.

(** Whatever the Tk calls do, the host window is not on the screen when the
    guard is done: if it is still there, it has not been drawn. *)
Theorem host_window_never_drawn main w e w1 t :
  main (record EvCallMain w) = (Raise e, w1) ->
  windows (snd (guard main w)) !! fresh (dom (windows w1)) = Some t ->
  viewable t = false.
Proof.
  intros Hmain.
  pose proof (fresh_window (windows w1)) as Hfresh.
  destruct (issubclass (exc_class e) Exception) eqn:Hcls.
  2: { rewrite (guard_uncaught _ _ _ _ Hmain Hcls). wsimpl. congruence. }
  rewrite (guard_caught _ _ _ _ Hmain Hcls).
  handler_cases e w1; wsimpl;
    rewrite ?lookup_insert_eq, ?lookup_fmap, ?Hfresh; intros Ht;
    try discriminate Ht; now injection Ht as <-.
Qed.

(** After a caught failure the host window is left behind exactly when it
    was created and a later call of the handler raised. *)
Theorem host_window_left_behind_iff main w e w1 :
  main (record EvCallMain w) = (Raise e, w1) ->
  issubclass (exc_class e) Exception = true ->
  is_Some (windows (snd (guard main w)) !! fresh (dom (windows w1))) <->
  faults w1 OpTk = None /\ exists x, fst (guard main w) = Raise x.
Proof.
  intros Hmain Hcls.
  pose proof (fresh_window (windows w1)) as Hfresh.
  rewrite (guard_caught _ _ _ _ Hmain Hcls).
  handler_cases e w1; wsimpl;
    rewrite ?lookup_insert_eq, ?lookup_fmap, ?Hfresh; split.
  - intros [? [=]].
  - intros [[=] _].
  - eauto.
  - eauto.
  - eauto.
  - eauto.
  - eauto.
  - eauto.
  - intros [? [=]].
  - intros [_ [? [=]]].
Qed.

(** Whatever [main] raises and whatever the Tk calls do, the guard closes
    and hides no window of the application: a window that was there when
    [main] failed is still there, in the same state, and still on the screen
    if it was. *)
Theorem application_windows_kept main w e w1 k t :
  main (record EvCallMain w) = (Raise e, w1) ->
  windows w1 !! k = Some t ->
  exists t' : toplevel,
    windows (snd (guard main w)) !! k = Some t' /\
    wm t' = wm t /\
    (viewable t = true -> viewable t' = true).
Proof.
  intros Hmain Hk.
  assert (Hne : fresh (dom (windows w1)) <> k).
  { intros <-. rewrite fresh_window in Hk. discriminate. }
  destruct (draw_keeps t) as [Hwm Hview].
  destruct (issubclass (exc_class e) Exception) eqn:Hcls.
  2: { rewrite (guard_uncaught _ _ _ _ Hmain Hcls). wsimpl. eauto. }
  rewrite (guard_caught _ _ _ _ Hmain Hcls).
  handler_cases e w1; wsimpl;
    rewrite ?(lookup_insert_ne _ _ _ _ Hne), ?lookup_fmap, Hk; eauto.
Qed.

(** After a caught failure the variable [err] holds the traceback text
    whatever the Tk calls do; [root] names the host window when it was
    created, and keeps what it was bound to when [tk.Tk()] raised. *)
Theorem handler_bindings main w e w1 :
  main (record EvCallMain w) = (Raise e, w1) ->
  issubclass (exc_class e) Exception = true ->
  globals (snd (guard main w)) !! "err" = Some (VStr (format_exc e)) /\
  (faults w1 OpTk = None ->
   globals (snd (guard main w)) !! "root"
   = Some (VTk (fresh (dom (windows w1))))) /\
  (forall x, faults w1 OpTk = Some x ->
   globals (snd (guard main w)) !! "root" = globals w1 !! "root").
Proof.
  intros Hmain Hcls. rewrite (guard_caught _ _ _ _ Hmain Hcls).
  assert (Hne : "root" <> "err") by discriminate.
  assert (Hne' : "err" <> "root") by discriminate.
  handler_cases e w1; wsimpl;
    rewrite ?lookup_insert_eq, ?(lookup_insert_ne _ _ _ _ Hne),
            ?(lookup_insert_ne _ _ _ _ Hne'), ?lookup_insert_eq;
    repeat split; try reflexivity; try discriminate; intros ? [=].
Qed.

(** Whatever [main] raises and whatever the Tk calls do, at most one dialog
    is shown; and one is shown exactly when the exception derives from
    [Exception] and the calls up to the dialog worked, even if destroying
    the window fails afterwards. *)
Theorem dialog_shown_iff main w e w1 :
  main (record EvCallMain w) = (Raise e, w1) ->
  count is_dialog (emitted w1 (snd (guard main w))) <= 1 /\
  (count is_dialog (emitted w1 (snd (guard main w))) = 1 <->
   issubclass (exc_class e) Exception = true /\
   faults w1 OpTk = None /\ faults w1 OpWithdraw = None /\
   faults w1 OpShowError = None).
Proof.
  intros Hmain.
  destruct (issubclass (exc_class e) Exception) eqn:Hcls.
  2: { rewrite (guard_uncaught _ _ _ _ Hmain Hcls). wsimpl.
       rewrite emitted_self. cbn. split; [lia |]. split; [lia |].
       intros [[=] _]. }
  rewrite (guard_caught _ _ _ _ Hmain Hcls).
  handler_cases e w1; wsimpl;
    (erewrite emitted_app by first [reflexivity | symmetry; apply List.app_nil_r]);
    cbn; (split; [lia |]); split; try lia; try tauto;
    try (intros (_ & ? & ? & ?); congruence).
Qed.

End Robustness.

(** * The guard on the sample runs *)

(** On the sample process every Tk call works. *)
Lemma world0_gui_ok : gui_ok started.
Proof. intros op. reflexivity. Qed.

(** C1, as first stated, fails.  [SystemExit] is an exception [main] can
    raise, every Tk call would work, and yet the guard does not catch it: it
    leaves the [try] statement and no dialog is shown.  And for an exception
    the guard does catch, on a machine where [tk.Tk()] fails the handler
    itself raises: no dialog is shown and an exception leaves the guard. *)
Lemma guard_lets_SystemExit_through :
  (main_exit started = (Raise exit_request, started) /\
   gui_ok started /\
   guard main_exit world0 = (Raise exit_request, started) /\
   ~ (exists w2 : World unit,
         guard main_exit world0 = (Ret tt, w2) /\
         count is_dialog (emitted started w2) = 1))
  /\
  (main_boom started_no_display = (Raise boom, started_no_display) /\
   issubclass (exc_class boom) Exception = true /\
   fst (guard main_boom world_no_display) = Raise no_display /\
   count is_dialog
     (emitted started_no_display (snd (guard main_boom world_no_display)))
   = 0).
Proof.
  split.
  - split; [reflexivity |]. split; [apply world0_gui_ok |].
    split; [reflexivity |].
    intros (w2 & Hrun & _). discriminate Hrun.
  - repeat split.
Qed.

(** [main] raises [RuntimeError("boom")]: caught, one dialog. *)
Lemma guard_catches_Exception_witness :
  main_boom started = (Raise boom, started) /\
  issubclass (exc_class boom) Exception = true /\
  exists w2 : World unit,
    guard main_boom world0 = (Ret tt, w2) /\
    count is_dialog (emitted started w2) = 1.
Proof.
  split; [reflexivity |]. split; [reflexivity |].
  apply (guard_catches_Exception main_boom world0 boom started);
    [reflexivity | reflexivity | intros op; reflexivity].
Defined.

(** [main] raises [RuntimeError("boom")]: the dialog is shown and its body
    contains ["boom"] and ["logs/avantixrpa.log"]. *)
Lemma dialog_body_contents_boom :
  main_boom started = (Raise boom, started) /\
  In (EvShowError dialog_title (dialog_body (format_exc boom)))
     (emitted started (snd (guard main_boom world0))) /\
  contains (dialog_body (format_exc boom)) "logs/avantixrpa.log" /\
  contains (dialog_body (format_exc boom)) (format_exc boom) /\
  contains (dialog_body (format_exc boom)) "boom".
Proof.
  split; [reflexivity |].
  assert (Hin : In (EvShowError dialog_title (dialog_body (format_exc boom)))
                   (emitted started (snd (guard main_boom world0))))
    by (right; right; left; reflexivity).
  split; [exact Hin |].
  exact (proj1 (dialog_body_contents main_boom world0 boom started eq_refl)
               _ _ Hin).
Defined.

(** C3, as first stated, fails twice over.  When the dialog call itself
    raises, the window has been created and withdrawn and is never
    destroyed: it is still in the window table when the exception leaves the
    guard.  And on the success path the number of windows destroyed is
    zero, not one. *)
Lemma host_window_outlives_failed_dialog :
  main_boom started_dialog_fails = (Raise boom, started_dialog_fails) /\
  issubclass (exc_class boom) Exception = true /\
  fst (guard main_boom world_dialog_fails) = Raise no_dialog /\
  emitted started_dialog_fails (snd (guard main_boom world_dialog_fails))
    = [EvTk 0; EvWithdraw 0] /\
  windows (snd (guard main_boom world_dialog_fails)) !! 0
    = Some (mkTop Withdrawn false) /\
  guard main_fine world0 = (Ret tt, started) /\
  count is_destroy (emitted world0 (snd (guard main_fine world0))) = 0.
Proof. repeat split. Qed.

(** Both paths on the sample process: [main] returning, and [main] raising
    [RuntimeError("boom")]. *)
Lemma host_window_scoped_witness :
  (main_fine started = (Ret tt, started) /\
   guard main_fine world0 = (Ret tt, started) /\
   emitted started (snd (guard main_fine world0)) = [])
  /\
  (main_boom started = (Raise boom, started) /\
   exists (r : nat) (w2 : World unit),
     guard main_boom world0 = (Ret tt, w2) /\
     windows started !! r = None /\
     emitted started w2 =
       [EvTk r; EvWithdraw r;
        EvShowError dialog_title (dialog_body (format_exc boom));
        EvDestroy r] /\
     count is_create (emitted started w2) = 1 /\
     count is_destroy (emitted started w2) = 1 /\
     windows w2 !! r = None).
Proof.
  split.
  - split; [reflexivity |].
    apply (proj1 (host_window_scoped main_fine world0) started). reflexivity.
  - split; [reflexivity |].
    apply (proj2 (host_window_scoped main_boom world0) boom started);
      [reflexivity | reflexivity | intros op; reflexivity].
Defined.

(** [main] returns: the guard leaves the world as it is. *)
Lemma normal_return_no_action_witness :
  main_fine started = (Ret tt, started) /\
  guard main_fine world0 = (Ret tt, started) /\
  emitted started (snd (guard main_fine world0)) = [] /\
  windows (snd (guard main_fine world0)) = windows started /\
  interpreter_exit (fst (guard main_fine world0)) = ExitSuccess.
Proof.
  split; [reflexivity |].
  apply (normal_return_no_action main_fine world0 started). reflexivity.
Defined.

(** The dialog shown for [RuntimeError("boom")]. *)
Lemma dialog_layout_witness :
  main_boom started = (Raise boom, started) /\
  In (EvShowError dialog_title (dialog_body (format_exc boom)))
     (emitted started (snd (guard main_boom world0))) /\
  dialog_title = "AVANTIXRPA" +:+ " " +:+ "起動エラー" /\
  dialog_body (format_exc boom)
  = message_line1 +:+ LF +:+ message_line2 +:+ LF +:+ LF +:+ format_exc boom.
Proof.
  split; [reflexivity |].
  pose proof (dialog_layout main_boom world0 boom started eq_refl)
    as (Hall & _ & _ & Hshown).
  assert (Hin : In (EvShowError dialog_title (dialog_body (format_exc boom)))
                   (emitted started (snd (guard main_boom world0))))
    by (apply Hshown; [reflexivity | intros op; reflexivity]).
  split; [exact Hin |].
  exact (Hall _ _ Hin).
Defined.

(** What the handler touches when [main] raises [RuntimeError("boom")]. *)
Lemma handler_frame_witness :
  main_boom started = (Raise boom, started) /\
  (app (snd (guard main_boom world0)) = app started /\
   faults (snd (guard main_boom world0)) = faults started /\
   dialog_reply (snd (guard main_boom world0)) = dialog_reply started /\
   forall k : string,
     k <> "err" -> k <> "root" ->
     globals (snd (guard main_boom world0)) !! k = globals started !! k)
  /\
  exists r : nat,
    fst (guard main_boom world0) = Ret tt /\
    emitted started (snd (guard main_boom world0)) =
      [EvTk r; EvWithdraw r;
       EvShowError dialog_title (dialog_body (format_exc boom));
       EvDestroy r] /\
    windows started !! r = None /\
    windows (snd (guard main_boom world0)) !! r = None /\
    windows (snd (guard main_boom world0)) =
      windows (snd (showerror dialog_title (dialog_body (format_exc boom))
                              started)).
Proof.
  split; [reflexivity |].
  pose proof (handler_frame main_boom world0 boom started eq_refl eq_refl)
    as [Hkeeps Hwindow].
  split; [exact Hkeeps |].
  apply Hwindow. intros op. reflexivity.
Defined.

(** [main] raises [RuntimeError("boom")]: the script ends normally. *)
Lemma caught_failure_ends_quietly_witness :
  main_boom started = (Raise boom, started) /\
  guard main_boom world0 = handler boom started /\
  count is_call_main (emitted started (snd (guard main_boom world0))) = 0 /\
  fst (guard main_boom world0) = Ret tt /\
  interpreter_exit (fst (guard main_boom world0)) = ExitSuccess.
Proof.
  split; [reflexivity |].
  pose proof (caught_failure_ends_quietly main_boom world0 boom started
                eq_refl eq_refl) as (Hrun & Hcount & Hend).
  split; [exact Hrun |]. split; [exact Hcount |].
  apply Hend. intros op. reflexivity.
Defined.

(** [main] calls [sys.exit(0)]: the [SystemExit] leaves the guard. *)
Lemma non_Exception_propagates_witness :
  main_exit started = (Raise exit_request, started) /\
  issubclass (exc_class exit_request) Exception = false /\
  guard main_exit world0 = (Raise exit_request, started) /\
  emitted started (snd (guard main_exit world0)) = [] /\
  windows (snd (guard main_exit world0)) = windows started /\
  interpreter_exit (fst (guard main_exit world0)) = ExitUncaught exit_request.
Proof.
  split; [reflexivity |]. split; [reflexivity |].
  apply (non_Exception_propagates main_exit world0 exit_request started);
    reflexivity.
Defined.

(** The worlds the handler goes through for [RuntimeError("boom")]. *)
Lemma host_window_never_on_screen_witness :
  main_boom started = (Raise boom, started) /\
  exists (r : nat) (wa wb wc wd : World unit),
    tk_Tk (snd (assign "err" (VStr (format_exc boom)) started))
      = (Ret r, wa) /\
    withdraw r (snd (assign "root" (VTk r) wa)) = (Ret tt, wb) /\
    showerror dialog_title (dialog_body (format_exc boom)) wb
      = (Ret (dialog_reply started), wc) /\
    destroy r wc = (Ret tt, wd) /\
    guard main_boom world0 = (Ret tt, wd) /\
    windows wa !! r = Some (mkTop Normal false) /\
    windows wb !! r = Some (mkTop Withdrawn false) /\
    windows wc !! r = Some (mkTop Withdrawn false) /\
    windows wd !! r = None /\
    emitted started wd =
      [EvTk r; EvWithdraw r;
       EvShowError dialog_title (dialog_body (format_exc boom));
       EvDestroy r].
Proof.
  split; [reflexivity |].
  apply (host_window_never_on_screen main_boom world0 boom started);
    [reflexivity | reflexivity | intros op; reflexivity].
Defined.

(** * Tk failing, on the sample runs *)


(** The guard ended normally on [RuntimeError("boom")]: the dialog was
    shown. *)
Lemma failure_never_silent_witness :
  main_boom started = (Raise boom, started) /\
  fst (guard main_boom world0) = Ret tt /\
  issubclass (exc_class boom) Exception = true /\
  gui_ok started /\
  emitted started (snd (guard main_boom world0)) =
    [EvTk (fresh (dom (windows started)));
     EvWithdraw (fresh (dom (windows started)));
     EvShowError dialog_title (dialog_body (format_exc boom));
     EvDestroy (fresh (dom (windows started)))].
Proof.
  split; [reflexivity |].
  assert (Hfst : fst (guard main_boom world0) = Ret tt)
    by (vm_compute; reflexivity).
  split; [exact Hfst |].
  destruct (guard main_boom world0) as [r w2] eqn:Hrun.
  cbv [fst] in Hfst. subst r.
  exact (failure_never_silent main_boom world0 boom started w2 eq_refl Hrun).
Defined.

(** The dialog call fails: the guard has created and withdrawn the window,
    and stopped there. *)
Lemma handler_calls_in_order_witness :
  main_boom started_dialog_fails = (Raise boom, started_dialog_fails) /\
  emitted started_dialog_fails (snd (guard main_boom world_dialog_fails))
  = [EvTk 0; EvWithdraw 0] /\
  exists k : list event,
    emitted started_dialog_fails (snd (guard main_boom world_dialog_fails))
    ++ k =
      [EvTk (fresh (dom (windows started_dialog_fails)));
       EvWithdraw (fresh (dom (windows started_dialog_fails)));
       EvShowError dialog_title (dialog_body (format_exc boom));
       EvDestroy (fresh (dom (windows started_dialog_fails)))].
Proof.
  split; [reflexivity |]. split; [reflexivity |].
  apply (handler_calls_in_order main_boom world_dialog_fails boom
           started_dialog_fails).
  reflexivity.
Defined.

(** No display: what leaves the guard is the [TclError] of [tk.Tk()], not
    the [RuntimeError]. *)
Lemma escaping_exception_is_from_Tk_witness :
  main_boom started_no_display = (Raise boom, started_no_display) /\
  guard main_boom world_no_display
  = (Raise no_display, snd (guard main_boom world_no_display)) /\
  (faults started_no_display OpTk = Some no_display \/
   (faults started_no_display OpTk = None /\
    faults started_no_display OpWithdraw = Some no_display) \/
   (faults started_no_display OpTk = None /\
    faults started_no_display OpWithdraw = None /\
    faults started_no_display OpShowError = Some no_display) \/
   (faults started_no_display OpTk = None /\
    faults started_no_display OpWithdraw = None /\
    faults started_no_display OpShowError = None /\
    faults started_no_display OpDestroy = Some no_display)).
Proof.
  split; [reflexivity |]. split; [reflexivity |].
  apply (escaping_exception_is_from_Tk main_boom world_no_display boom
           started_no_display no_display
           (snd (guard main_boom world_no_display)));
    reflexivity.
Defined.

(** The dialog call fails: the window is left behind, withdrawn and not
    drawn. *)
Lemma host_window_never_drawn_witness :
  main_boom started_dialog_fails = (Raise boom, started_dialog_fails) /\
  windows (snd (guard main_boom world_dialog_fails))
    !! fresh (dom (windows started_dialog_fails))
  = Some (mkTop Withdrawn false) /\
  viewable (mkTop Withdrawn false) = false.
Proof.
  split; [reflexivity |]. split; [reflexivity |].
  apply (host_window_never_drawn main_boom world_dialog_fails boom
           started_dialog_fails (mkTop Withdrawn false));
    reflexivity.
Defined.

(** The dialog call fails after the window was created: the window is left
    behind, and an exception leaves the guard. *)
Lemma host_window_left_behind_iff_witness :
  main_boom started_dialog_fails = (Raise boom, started_dialog_fails) /\
  issubclass (exc_class boom) Exception = true /\
  (is_Some (windows (snd (guard main_boom world_dialog_fails))
              !! fresh (dom (windows started_dialog_fails))) <->
   faults started_dialog_fails OpTk = None /\
   exists x, fst (guard main_boom world_dialog_fails) = Raise x).
Proof.
  split; [reflexivity |]. split; [reflexivity |].
  apply (host_window_left_behind_iff main_boom world_dialog_fails boom
           started_dialog_fails);
    reflexivity.
Defined.

(** The application has a window on the screen and a hidden one when [main]
    fails, and destroying the host window fails: both are still there. *)
Lemma application_windows_kept_witness :
  main_boom_late (record EvCallMain world_destroy_fails)
  = (Raise boom, failed_late) /\
  windows failed_late !! 0 = Some (mkTop Normal true) /\
  exists t' : toplevel,
    windows (snd (guard main_boom_late world_destroy_fails)) !! 0 = Some t' /\
    wm t' = wm (mkTop Normal true) /\
    (viewable (mkTop Normal true) = true -> viewable t' = true).
Proof.
  split; [reflexivity |]. split; [reflexivity |].
  apply (application_windows_kept main_boom_late world_destroy_fails boom
           failed_late 0 (mkTop Normal true));
    reflexivity.
Defined.

(** No display: [err] is bound, [root] is not. *)
Lemma handler_bindings_witness :
  main_boom started_no_display = (Raise boom, started_no_display) /\
  issubclass (exc_class boom) Exception = true /\
  globals (snd (guard main_boom world_no_display)) !! "err"
  = Some (VStr (format_exc boom)) /\
  globals (snd (guard main_boom world_no_display)) !! "root" = None.
Proof.
  split; [reflexivity |]. split; [reflexivity |].
  pose proof (handler_bindings main_boom world_no_display boom
                started_no_display eq_refl eq_refl) as (Herr & _ & Hroot).
  split; [exact Herr |].
  exact (Hroot no_display eq_refl).
Defined.

(** Destroying the window fails after the dialog: the dialog has been
    shown all the same. *)
Lemma dialog_shown_iff_witness :
  main_boom_late (record EvCallMain world_destroy_fails)
  = (Raise boom, failed_late) /\
  fst (guard main_boom_late world_destroy_fails) = Raise cannot_destroy /\
  count is_dialog
    (emitted failed_late (snd (guard main_boom_late world_destroy_fails)))
  = 1.
Proof.
  split; [reflexivity |]. split; [reflexivity |].
  apply (proj2 (dialog_shown_iff main_boom_late world_destroy_fails boom
                  failed_late eq_refl)).
  repeat split.
Defined.
